(** * Logging bootstrap of the predictive-maintenance system

    A shallow embedding of [src/utils/logger.py]: the resolution of the
    logging configuration file, [setup_logging] with its fallback to a
    console handler plus a rotating file handler, and [get_logger].

    The Python module threads three pieces of process-wide state through
    every call: the environment ([os.environ]), the file system and the
    registry of the [logging] package.  They are gathered in one record,
    [world], and the code is written in a small state-and-exception monad
    over it.

    The file has two parts.  In the first a call of a logging method is
    an entry in a journal: the handlers are taken to accept every record
    quietly.  In the second, the module [Handlers], the code of the
    installed handlers is a parameter that may raise and may touch the
    world, and exceptions that are no [Exception] are told apart. *)

From Stdlib Require Import ZArith Ascii String.
From stdpp Require Import gmap strings list.

Local Open Scope Z_scope.
Local Open Scope string_scope.
Local Open Scope list_scope.

(** ** Exceptions

    Every constructor stands for a subclass of Python's [Exception], so a
    clause [except Exception] catches all of them. *)

Inductive exn : Type :=
  | PermissionError
  | FileExistsError
  | IsADirectoryError
  | FileNotFoundError
  | ValueError
  | ConfigError (what : string).

(** ** Paths

    A [pathlib.Path] is kept as the text it was built from; the
    normalisation pathlib applies to that text (doubled separators, a
    trailing separator) is not modelled, and no statement below relies on
    two different texts naming different files. *)

Record path : Type := Path { path_str : string }.

(** The annotation [Optional[str | Path]] of the path arguments. *)
Inductive path_arg : Type :=
  | ArgStr (s : string)
  | ArgPath (p : path).

(** [Path(x)] for [x : str | Path]. *)
Definition Path_of (a : path_arg) : path :=
  match a with
  | ArgStr s => Path s
  | ArgPath p => p
  end.

(** Truth value of [x : Optional[str | Path]] in [if x:].  [None] and the
    empty string are false; a [Path] object defines neither [__bool__] nor
    [__len__], so it is always true. *)
Definition truthy_arg (a : option path_arg) : bool :=
  match a with
  | None => false
  | Some (ArgStr s) => bool_decide (s ≠ "")
  | Some (ArgPath _) => true
  end.

(** Truth value of [x : Optional[str]]. *)
Definition truthy_str (s : option string) : bool :=
  match s with
  | None => false
  | Some s => bool_decide (s ≠ "")
  end.

(** [DEFAULT_LOGGING_CONF_PATH = Path("config") / "logging.conf"] *)
Definition DEFAULT_LOGGING_CONF_PATH : path := Path "config/logging.conf".

(** Index of the last ["/"] of a text, if any. *)
Fixpoint last_slash (s : string) (i : nat) (seen : option nat) : option nat :=
  match s with
  | EmptyString => seen
  | String c rest =>
      last_slash rest (S i)
        (if Ascii.eqb c "/"%char then Some i else seen)
  end.

(** [p.parent] for a relative path: the text before the last separator,
    or ["."] when there is none. *)
Definition parent (p : path) : path :=
  match last_slash (path_str p) 0%nat None with
  | Some i => Path (substring 0 i (path_str p))
  | None => Path "."
  end.

(** ** File system

    [nodes] says what exists under each path text.  [faults] lists the
    paths the process cannot touch, with the exception the operating
    system answers there: [stat], [mkdir] and [open] on such a path raise
    it. *)

Inductive node : Type := RegularFile | Directory.

Record filesystem : Type := {
  nodes : gmap string node;
  faults : gmap string exn
}.

(** ** State of the logging package *)

Definition NOTSET : Z := 0.
Definition DEBUG : Z := 10.
Definition INFO : Z := 20.
Definition WARNING : Z := 30.
Definition ERROR : Z := 40.
Definition CRITICAL : Z := 50.

Record Formatter : Type := {
  fmt : string;
  datefmt : string
}.

(** Where a handler writes. [Configured] stands for a handler built by
    [logging.config.fileConfig] from a configuration file. *)
Inductive sink : Type :=
  | Console
  | RotatingFile (baseFilename : string) (maxBytes backupCount : Z)
                 (encoding : string)
  | Configured (tag : string).

Record Handler : Type := {
  h_sink : sink;
  h_level : Z;
  h_formatter : option Formatter
}.

Record Logger : Type := {
  lg_name : string;
  lg_level : Z;
  lg_handlers : list Handler
}.

(** A logger handle is a reference: either the root logger or a location
    in the store of logger objects. *)
Inductive handle : Type :=
  | RootLogger
  | LoggerAt (l : nat).

(** One call of a logging method: which logger, the severity, the message
    with its arguments, and the exception attached by [exc_info=True]. *)
Record LogRecord : Type := {
  rec_logger : handle;
  rec_levelno : Z;
  rec_msg : string;
  rec_args : list string;
  rec_exc_info : option exn
}.

(** [root] is [logging.root]; [objects] is the store of the other logger
    objects; [loggerDict] is [Logger.manager.loggerDict], from names to
    locations of the store; [journal] lists the calls of logging methods,
    oldest first.  Whether a record is then written by a handler is
    decided inside the logging package from the levels kept here. *)
Record logging_state : Type := {
  root : Logger;
  objects : list Logger;
  loggerDict : gmap string nat;
  journal : list LogRecord
}.

Record world : Type := {
  environ : gmap string string;
  fs : filesystem;
  logging : logging_state
}.

Definition set_fs (f : filesystem) (w : world) : world :=
  {| environ := environ w; fs := f; logging := logging w |}.

Definition set_logging (s : logging_state) (w : world) : world :=
  {| environ := environ w; fs := fs w; logging := s |}.

Definition set_environ (env : gmap string string) (w : world) : world :=
  {| environ := env; fs := fs w; logging := logging w |}.

(** ** The monad: state passing with exceptions

    A computation takes the world and gives back how it ended, a value or
    a raised exception, together with the world it leaves: what was done
    before an exception was raised stays done. *)

Inductive outcome (A : Type) : Type :=
  | Returned (a : A)
  | Raised (e : exn).
Arguments Returned {A} a.
Arguments Raised {A} e.

Definition M (A : Type) : Type := world -> outcome A * world.

Definition ret {A : Type} (a : A) : M A := fun w => (Returned a, w).

Definition raise {A : Type} (e : exn) : M A := fun w => (Raised e, w).

Definition bind {A B : Type} (m : M A) (k : A -> M B) : M B :=
  fun w =>
    match m w with
    | (Returned a, w') => k a w'
    | (Raised e, w') => (Raised e, w')
    end.

(** [try: m  except Exception: h] *)
Definition try_except {A : Type} (m : M A) (h : exn -> M A) : M A :=
  fun w =>
    match m w with
    | (Returned a, w') => (Returned a, w')
    | (Raised e, w') => h e w'
    end.

Declare Scope py_scope.
Delimit Scope py_scope with py.
Notation "x <- c ;; k" := (bind c (fun x => k))
  (at level 100, c at next level, right associativity) : py_scope.
Notation "c ;; k" := (bind c (fun _ => k))
  (at level 100, right associativity) : py_scope.
Local Open Scope py_scope.

(** ** Operating-system primitives *)

(** [os.getenv(name)], for a name the operating system can encode. *)
Definition getenv (name : string) : M (option string) :=
  fun w => (Returned (environ w !! name), w).

(** [os.getenv(name, default)] *)
Definition getenv_default (name dflt : string) : M string :=
  fun w => (Returned (default dflt (environ w !! name)), w).

Global Instance node_eq_dec : EqDecision node.
Proof. solve_decision. Defined.

(** [p.is_file()]: [stat] on the path, then a test of the file type. *)
Definition is_file (p : path) : M bool :=
  fun w =>
    match faults (fs w) !! path_str p with
    | Some e => (Raised e, w)
    | None =>
        (Returned (bool_decide (nodes (fs w) !! path_str p = Some RegularFile)), w)
    end.

Definition add_node (name : string) (n : node) (f : filesystem) : filesystem :=
  {| nodes := <[name := n]> (nodes f); faults := faults f |}.

(** [p.mkdir(parents=True, exist_ok=True)] for a path of one component,
    whose parent is the working directory: an existing directory is left
    alone, anything else under that name raises [FileExistsError]. *)
Definition mkdir_exist_ok (p : path) : M unit :=
  fun w =>
    match faults (fs w) !! path_str p with
    | Some e => (Raised e, w)
    | None =>
        match nodes (fs w) !! path_str p with
        | Some Directory => (Returned tt, w)
        | Some RegularFile => (Raised FileExistsError, w)
        | None => (Returned tt, set_fs (add_node (path_str p) Directory (fs w)) w)
        end
    end.

(** [open(p, "a")]: the directory holding [p] must exist; the file is
    created when absent. *)
Definition open_append (p : path) : M unit :=
  fun w =>
    match faults (fs w) !! path_str p with
    | Some e => (Raised e, w)
    | None =>
        if bool_decide (path_str (parent p) = "."
                        ∨ nodes (fs w) !! path_str (parent p) = Some Directory)
        then
          match nodes (fs w) !! path_str p with
          | Some Directory => (Raised IsADirectoryError, w)
          | Some RegularFile => (Returned tt, w)
          | None =>
              (Returned tt, set_fs (add_node (path_str p) RegularFile (fs w)) w)
          end
        else (Raised FileNotFoundError, w)
    end.

(** ** Primitives of the logging package *)

Definition logger_at (h : handle) (s : logging_state) : option Logger :=
  match h with
  | RootLogger => Some (root s)
  | LoggerAt l => objects s !! l
  end.

Definition update_logger (h : handle) (f : Logger -> Logger)
    (s : logging_state) : logging_state :=
  match h with
  | RootLogger =>
      {| root := f (root s); objects := objects s;
         loggerDict := loggerDict s; journal := journal s |}
  | LoggerAt l =>
      {| root := root s; objects := alter f l (objects s);
         loggerDict := loggerDict s; journal := journal s |}
  end.

(** [logging.getLogger(name)]: the root logger for no name, an empty name
    or the root's own name; otherwise the logger the registry holds under
    that name, made and registered at the first request.  The place
    holders the package keeps for the missing ancestors of a dotted name
    are not entered: [loggerDict] lists the loggers proper. *)
Definition logging_getLogger (name : option string) : M handle :=
  fun w =>
    let s := logging w in
    match name with
    | None => (Returned RootLogger, w)
    | Some n =>
        if bool_decide (n = "" ∨ n = lg_name (root s)) then (Returned RootLogger, w)
        else
          match loggerDict s !! n with
          | Some l => (Returned (LoggerAt l), w)
          | None =>
              let l := length (objects s) in
              (Returned (LoggerAt l),
               set_logging
                 {| root := root s;
                    objects := objects s ++
                      [{| lg_name := n; lg_level := NOTSET; lg_handlers := [] |}];
                    loggerDict := <[n := l]> (loggerDict s);
                    journal := journal s |} w)
          end
    end.

(** A call [logger.log(levelno, msg, *args, exc_info=...)], entered in the
    journal.  What the handlers do with the record is the matter of the
    module [Handlers] below. *)
Definition Logger_log (h : handle) (levelno : Z) (msg : string)
    (args : list string) (exc : option exn) : M unit :=
  fun w =>
    let s := logging w in
    (Returned tt,
     set_logging
       {| root := root s; objects := objects s; loggerDict := loggerDict s;
          journal := journal s ++
            [{| rec_logger := h; rec_levelno := levelno; rec_msg := msg;
                rec_args := args; rec_exc_info := exc |}] |} w).

(** [logger.debug(msg, *args)] *)
Definition Logger_debug (h : handle) (msg : string) (args : list string) : M unit :=
  Logger_log h DEBUG msg args None.

(** [logger.exception(msg, *args)] inside a handler of [e]: severity
    ERROR, with the exception being handled attached. *)
Definition Logger_exception (h : handle) (msg : string) (args : list string)
    (e : exn) : M unit :=
  Logger_log h ERROR msg args (Some e).

(** [logger.setLevel(level)] *)
Definition Logger_setLevel (h : handle) (lvl : Z) : M unit :=
  fun w =>
    (Returned tt,
     set_logging
       (update_logger h
          (fun g => {| lg_name := lg_name g; lg_level := lvl;
                       lg_handlers := lg_handlers g |})
          (logging w)) w).

(** [logger.addHandler(hdlr)] with a handler object made just before,
    hence not yet in the list. *)
Definition Logger_addHandler (h : handle) (hdlr : Handler) : M unit :=
  fun w =>
    (Returned tt,
     set_logging
       (update_logger h
          (fun g => {| lg_name := lg_name g; lg_level := lg_level g;
                       lg_handlers := lg_handlers g ++ [hdlr] |})
          (logging w)) w).

(** [logging.basicConfig(level=, format=, datefmt=, force=)]: with
    [force] every handler of the root logger is removed first; then, if
    the root logger has no handler, a stream handler on standard error
    with the given formatter is added and the level is set on the ROOT
    LOGGER.  The handler keeps the level it was made with, [NOTSET]. *)
Definition basicConfig (level : Z) (format dfs : string) (force : bool) : M unit :=
  fun w =>
    let s := logging w in
    let kept := if force then [] else lg_handlers (root s) in
    match kept with
    | [] =>
        (Returned tt,
         set_logging
           {| root :=
                {| lg_name := lg_name (root s);
                   lg_level := level;
                   lg_handlers :=
                     [{| h_sink := Console; h_level := NOTSET;
                         h_formatter :=
                           Some {| fmt := format; datefmt := dfs |} |}] |};
              objects := objects s; loggerDict := loggerDict s;
              journal := journal s |} w)
    | _ :: _ => (Returned tt, w)
    end.

(** [RotatingFileHandler(filename, maxBytes=, backupCount=, encoding=)]:
    the file is opened for appending at once (no [delay]); the handler
    starts without formatter and at level [NOTSET]. *)
Definition RotatingFileHandler (filename : path) (maxBytes backupCount : Z)
    (encoding : string) : M Handler :=
  open_append filename ;;
  ret {| h_sink := RotatingFile (path_str filename) maxBytes backupCount encoding;
         h_level := NOTSET; h_formatter := None |}.

(** [hdlr.setFormatter(f)] and [hdlr.setLevel(l)] on a handler object not
    yet shared. *)
Definition setFormatter (hdlr : Handler) (f : Formatter) : Handler :=
  {| h_sink := h_sink hdlr; h_level := h_level hdlr; h_formatter := Some f |}.

Definition setLevel (hdlr : Handler) (lvl : Z) : Handler :=
  {| h_sink := h_sink hdlr; h_level := lvl; h_formatter := h_formatter hdlr |}.

(** ** The module [src/utils/logger.py] *)

(** [__name__] of the module, imported as the docstring shows. *)
Definition module_name : string := "src.utils.logger".

Definition FORMAT : string := "%(asctime)s | %(levelname)-8s | %(name)s | %(message)s".
Definition DATEFMT : string := "%Y-%m-%d %H:%M:%S".

(** The candidate list of [_resolve_logging_config_path], lines 55-64. *)
Definition build_candidates (override_path : option path_arg)
    (env_value : option string) : list path :=
  let candidates : list path := [] in
  let candidates : list path :=
    match override_path with
    | Some a => if truthy_arg override_path then (candidates ++ [Path_of a])%list
                else candidates
    | None => candidates
    end in
  let candidates : list path :=
    match env_value with
    | Some v => if truthy_str env_value then (candidates ++ [Path v])%list
                else candidates
    | None => candidates
    end in
  (candidates ++ [DEFAULT_LOGGING_CONF_PATH])%list.

(** The loop of lines 66-74.  The [try] holds the test alone; an
    exception of the probe goes to [continue], like a negative answer.
    ([candidate and ...]: a [Path] is always true.) *)
Fixpoint probe (candidates : list path) : M (option path) :=
  match candidates with
  | [] => ret None
  | candidate :: rest =>
      found <- try_except (is_file candidate) (fun _ => ret false) ;;
      if found then ret (Some candidate) else probe rest
  end.

Definition _resolve_logging_config_path (override_path : option path_arg)
    (env_var : string) : M (option path) :=
  env_value <- getenv env_var ;;
  probe (build_candidates override_path env_value).

(** Line 107. *)
Definition select_level : M Z :=
  v <- getenv_default "DEBUG" "0" ;;
  ret (if bool_decide (v = "1") then DEBUG else INFO).

(** Lines 106-130: the default configuration. *)
Definition install_default : M unit :=
  log_level <- select_level ;;
  basicConfig log_level FORMAT DATEFMT true ;;
  let log_file := Path "logs/app.log" in
  mkdir_exist_ok (parent log_file) ;;
  file_handler <- RotatingFileHandler log_file 5000000 5 "utf-8" ;;
  let file_handler :=
    setFormatter file_handler {| fmt := FORMAT; datefmt := DATEFMT |} in
  let file_handler := setLevel file_handler log_level in
  root_logger <- logging_getLogger None ;;
  Logger_addHandler root_logger file_handler ;;
  lg <- logging_getLogger (Some module_name) ;;
  Logger_debug lg
    "Logging configured with basicConfig + RotatingFileHandler (no config file found)"
    [].

(** Lines 96-98. *)
Definition report_loaded (resolved_path : path) : M unit :=
  lg <- logging_getLogger (Some module_name) ;;
  Logger_debug lg "Logging configured from file: %s" [path_str resolved_path].

(** Lines 101-104, inside the handler of [e]. *)
Definition report_failure (resolved_path : path) (e : exn) : M unit :=
  lg <- logging_getLogger (Some module_name) ;;
  Logger_exception lg
    "Failed to configure logging from %s. Falling back to basicConfig."
    [path_str resolved_path] e.

Section Setup.

(** [logging.config.fileConfig(fname, disable_existing_loggers=)] reads
    and applies a configuration file; what it does with a given file is
    the logging package's business and is left open here. *)
Variable fileConfig : string -> bool -> M unit.

(** Lines 93-104: [true] when the function returns from inside the
    [try], [false] when the default configuration is still to come. *)
Definition load_config (resolved_path : option path) : M bool :=
  match resolved_path with
  | Some p =>
      try_except
        (fileConfig (path_str p) false ;;
         report_loaded p ;;
         ret true)
        (fun e =>
           report_failure p e ;;
           ret false)
  | None => ret false
  end.

Definition setup_logging (config_path : option path_arg) (env_var : string)
    : M unit :=
  resolved_path <- _resolve_logging_config_path config_path env_var ;;
  done <- load_config resolved_path ;;
  if done then ret tt else install_default.

End Setup.

(** [get_logger], lines 133-149. *)
Definition get_logger (name : option string) : M handle :=
  let DEFAULT_LOGGER_NAME := "predictive_maintenance_system" in
  logging_getLogger
    (Some (if truthy_str name then default "" name else DEFAULT_LOGGER_NAME)).

(** ** Vocabulary of the statements *)

(** A path exists as a regular file as far as the process can tell:
    [stat] answers, and answers "regular file". *)
Definition exists_as_file (f : filesystem) (p : path) : bool :=
  match faults f !! path_str p with
  | Some _ => false
  | None => bool_decide (nodes f !! path_str p = Some RegularFile)
  end.

(** The file system with every path that cannot be probed made absent. *)
Definition forget_faulty (f : filesystem) : filesystem :=
  {| nodes := filter (fun kv => faults f !! kv.1 = None) (nodes f);
     faults := ∅ |}.

(** DEBUG exactly when the variable [DEBUG] is set to ["1"]. *)
Definition level_of_env (env : gmap string string) : Z :=
  if bool_decide (env !! "DEBUG" = Some "1") then DEBUG else INFO.

Definition default_formatter : Formatter :=
  {| fmt := FORMAT; datefmt := DATEFMT |}.

(** The two handlers of the default configuration. *)
Definition console_handler : Handler :=
  {| h_sink := Console; h_level := NOTSET;
     h_formatter := Some default_formatter |}.

Definition file_handler (lvl : Z) : Handler :=
  {| h_sink := RotatingFile "logs/app.log" 5000000 5 "utf-8";
     h_level := lvl;
     h_formatter := Some default_formatter |}.


(** The directory [logs] can be made or is there already, and
    [logs/app.log] can be opened for appending. *)
Definition fallback_ready (f : filesystem) : bool :=
  match faults f !! "logs", faults f !! "logs/app.log" with
  | None, None =>
      bool_decide (nodes f !! "logs" ≠ Some RegularFile)
      && bool_decide (nodes f !! "logs/app.log" ≠ Some Directory)
  | _, _ => false
  end.


Definition failure_record (h : handle) (p : path) (e : exn) : LogRecord :=
  {| rec_logger := h; rec_levelno := ERROR;
     rec_msg := "Failed to configure logging from %s. Falling back to basicConfig.";
     rec_args := [path_str p]; rec_exc_info := Some e |}.

(** Every registered name designates an object of the store. *)
Definition registry_wf (s : logging_state) : Prop :=
  ∀ n l, loggerDict s !! n = Some l → (l < length (objects s))%nat.

Section Branches.

Variable fileConfig : string -> bool -> M unit.

(** The path resolved by [setup_logging] together with the outcome of
    loading it, if a path is resolved. *)
Definition load_attempt (config_path : option path_arg) (env_var : string)
    (w : world) : option (path * (outcome unit * world)) :=
  match _resolve_logging_config_path config_path env_var w with
  | (Returned (Some p), w1) => Some (p, fileConfig (path_str p) false w1)
  | _ => None
  end.

(** [setup_logging] reaches line 106: nothing was resolved, or the
    load raised. *)
Definition takes_fallback (config_path : option path_arg) (env_var : string)
    (w : world) : bool :=
  match load_attempt config_path env_var w with
  | None => true
  | Some (_, (Raised _, _)) => true
  | Some (_, (Returned _, _)) => false
  end.

End Branches.

(** ** Sample worlds *)

Definition fresh_logging : logging_state :=
  {| root := {| lg_name := "root"; lg_level := WARNING; lg_handlers := [] |};
     objects := []; loggerDict := ∅; journal := [] |}.

Definition bare_world : world :=
  {| environ := ∅;
     fs := {| nodes := ∅; faults := ∅ |};
     logging := fresh_logging |}.


(** [app.conf] exists; [secret/app.conf] exists but cannot be probed. *)
Definition conf_world : world :=
  {| environ := {[ "LOG_CFG" := "secret/app.conf" ]};
     fs := {| nodes := {[ "app.conf" := RegularFile;
                          "secret/app.conf" := RegularFile ]};
              faults := {[ "secret/app.conf" := PermissionError ]} |};
     logging := fresh_logging |}.

(** A loader that rejects every file. *)
Definition rejecting_fileConfig : string -> bool -> M unit :=
  fun _ _ => raise (ConfigError "malformed").

(** A loader that accepts every file and installs one handler of its own
    on the root logger. *)
Definition accepting_fileConfig : string -> bool -> M unit :=
  fun fname _ =>
    Logger_addHandler RootLogger
      {| h_sink := Configured fname; h_level := NOTSET; h_formatter := None |}.

(** ** Further vocabulary *)

(** The entry [install_default] makes in the journal, line 130. *)
Definition fallback_record (h : handle) : LogRecord :=
  {| rec_logger := h; rec_levelno := DEBUG;
     rec_msg := "Logging configured with basicConfig + RotatingFileHandler (no config file found)";
     rec_args := []; rec_exc_info := None |}.

(** Every registered name designates a logger object of that name. *)
Definition registry_named (s : logging_state) : Prop :=
  ∀ n l, loggerDict s !! n = Some l → lg_name <$> objects s !! l = Some n.

(** The name [get_logger] asks the registry for. *)
Definition requested_name (name : option string) : string :=
  match name with
  | Some s => if bool_decide (s ≠ "") then s else "predictive_maintenance_system"
  | None => "predictive_maintenance_system"
  end.

Section Entry.

Variable fileConfig : string -> bool -> M unit.

(** The world in which the fallback of [setup_logging] starts its own
    work: the one the failed load has left, or the caller's when no path
    was resolved. *)
Definition after_load (config_path : option path_arg) (env_var : string)
    (w : world) : world :=
  match load_attempt fileConfig config_path env_var w with
  | Some (_, (Raised _, w1)) => w1
  | _ => w
  end.

(** Line 154: the call made when the module is imported. *)
Definition module_import : M unit := setup_logging fileConfig None "LOG_CFG".

End Entry.

(** [etc/log.conf], named by [LOG_CFG], and the default file both exist;
    [logs] is a directory already. *)
Definition env_world : world :=
  {| environ := {[ "LOG_CFG" := "etc/log.conf" ]};
     fs := {| nodes := {[ "etc/log.conf" := RegularFile;
                          "config/logging.conf" := RegularFile;
                          "logs" := Directory ]};
              faults := ∅ |};
     logging := fresh_logging |}.

(** * The module with its handlers at work

    In the definitions above a call of a logging method is an entry in
    the journal and nothing else, every exception is an [Exception], and
    every variable name can be looked up.  Here the three are given up.
    - What the logging package does with a record once [debug] or
      [exception] has been called (the filters, then the [emit] of every
      handler of the logger and of its ancestors) and what closing a
      handler does are code of whatever handlers are installed: both are
      parameters, free to raise and to change the world.
    - [SystemExit] and [KeyboardInterrupt] are no [Exception]s: a clause
      [except Exception] lets them pass.
    - A Python string with a lone surrogate has no encoding for the
      operating system, and [os.getenv] raises on it.
    An interrupt is modelled where the code of a loader or of a handler
    raises it, not as a signal arriving between two lines.
    The definitions of the first part are this module seen with handlers
    that accept every record and every closing without a trace. *)

Global Instance Formatter_eq_dec : EqDecision Formatter.
Proof. solve_decision. Defined.

Global Instance sink_eq_dec : EqDecision sink.
Proof. solve_decision. Defined.

Global Instance Handler_eq_dec : EqDecision Handler.
Proof. solve_decision. Defined.

(** [l.remove(h)]: the first occurrence goes. *)
Fixpoint remove_first (h : Handler) (l : list Handler) : list Handler :=
  match l with
  | [] => []
  | x :: rest => if decide (x = h) then rest else x :: remove_first h rest
  end.

Module Handlers.

(** What can be raised: an [Exception] of the vocabulary above, or one of
    the [BaseException]s that are none. *)
Inductive pyexn : Type :=
  | Exception (e : exn)
  | SystemExit
  | KeyboardInterrupt.


Inductive result (A : Type) : Type :=
  | Done (a : A)
  | Thrown (x : pyexn).
Arguments Done {A} a.
Arguments Thrown {A} x.

Definition Py (A : Type) : Type := world -> result A * world.

Definition py_ret {A : Type} (a : A) : Py A := fun w => (Done a, w).

Definition py_raise {A : Type} (x : pyexn) : Py A := fun w => (Thrown x, w).

Definition py_bind {A B : Type} (m : Py A) (k : A -> Py B) : Py B :=
  fun w =>
    match m w with
    | (Done a, w') => k a w'
    | (Thrown x, w') => (Thrown x, w')
    end.

(** [try: m  except Exception: h]: only an [Exception] is handled. *)
Definition py_try {A : Type} (m : Py A) (h : exn -> Py A) : Py A :=
  fun w =>
    match m w with
    | (Done a, w') => (Done a, w')
    | (Thrown (Exception e), w') => h e w'
    | (Thrown x, w') => (Thrown x, w')
    end.

(** A computation of the first part, which raises [Exception]s only. *)
Definition lift {A : Type} (m : M A) : Py A :=
  fun w =>
    match m w with
    | (Returned a, w') => (Done a, w')
    | (Raised e, w') => (Thrown (Exception e), w')
    end.

Declare Scope handlers_scope.
Delimit Scope handlers_scope with handlers.
Notation "x <- c ;; k" := (py_bind c (fun x => k))
  (at level 100, c at next level, right associativity) : handlers_scope.
Notation "c ;; k" := (py_bind c (fun _ => k))
  (at level 100, right associativity) : handlers_scope.
Local Open Scope handlers_scope.

(** The name of an environment variable as a Python string: one that
    the operating system's encoding accepts, given by its text, or one
    holding a lone surrogate. *)
Inductive var_name : Type :=
  | Encodable (s : string)
  | Unencodable.

(** [os.getenv(name)]; [UnicodeEncodeError] is a [ValueError]. *)
Definition getenv (name : var_name) : Py (option string) :=
  match name with
  | Encodable s => lift (getenv s)
  | Unencodable => py_raise (Exception ValueError)
  end.

(** The code of the installed handlers: [emit r] is all that the logging
    package does with the record [r] of a call, [close h] is [h.close()]. *)
Record handler_code : Type := {
  emit : LogRecord -> Py unit;
  close : Handler -> Py unit
}.

(** [root.removeHandler(h)] *)
Definition root_removeHandler (h : Handler) : Py unit :=
  fun w =>
    (Done tt,
     set_logging
       (update_logger RootLogger
          (fun g => {| lg_name := lg_name g; lg_level := lg_level g;
                       lg_handlers := remove_first h (lg_handlers g) |})
          (logging w)) w).

Section Code.

Variable fileConfig : string -> bool -> Py unit.
Variable code : handler_code.

(** A call [logger.log(levelno, msg, *args, exc_info=...)]: the call is
    entered in the journal, then the record goes to the handlers. *)
Definition Logger_log (h : handle) (levelno : Z) (msg : string)
    (args : list string) (exc : option exn) : Py unit :=
  lift (Logger_log h levelno msg args exc) ;;
  emit code {| rec_logger := h; rec_levelno := levelno; rec_msg := msg;
               rec_args := args; rec_exc_info := exc |}.

Definition Logger_debug (h : handle) (msg : string) (args : list string)
    : Py unit :=
  Logger_log h DEBUG msg args None.

Definition Logger_exception (h : handle) (msg : string) (args : list string)
    (e : exn) : Py unit :=
  Logger_log h ERROR msg args (Some e).

(** [for h in root.handlers[:]: root.removeHandler(h); h.close()], the
    loop of [basicConfig] under [force], over the list as it was at the
    start. *)
Fixpoint close_each (hs : list Handler) : Py unit :=
  match hs with
  | [] => py_ret tt
  | h :: rest =>
      root_removeHandler h ;;
      close code h ;;
      close_each rest
  end.

(** [logging.basicConfig(level=, format=, datefmt=, force=)] *)
Definition basicConfig (level : Z) (format dfs : string) (force : bool)
    : Py unit :=
  (if force
   then fun w => close_each (lg_handlers (root (logging w))) w
   else py_ret tt) ;;
  lift (basicConfig level format dfs false).

(** Lines 33-74. *)
Definition _resolve_logging_config_path (override_path : option path_arg)
    (env_var : var_name) : Py (option path) :=
  env_value <- getenv env_var ;;
  lift (probe (build_candidates override_path env_value)).

(** Lines 107-114: the level and the console. *)
Definition console_stage : Py Z :=
  log_level <- lift select_level ;;
  basicConfig log_level FORMAT DATEFMT true ;;
  py_ret log_level.

(** Lines 118-128: the rotating file handler. *)
Definition file_stage (log_level : Z) : Py unit :=
  let log_file := Path "logs/app.log" in
  lift (mkdir_exist_ok (parent log_file)) ;;
  file_handler <- lift (RotatingFileHandler log_file 5000000 5 "utf-8") ;;
  let file_handler :=
    setFormatter file_handler {| fmt := FORMAT; datefmt := DATEFMT |} in
  let file_handler := setLevel file_handler log_level in
  root_logger <- lift (logging_getLogger None) ;;
  lift (Logger_addHandler root_logger file_handler).

(** Line 130. *)
Definition closing_report : Py unit :=
  lg <- lift (logging_getLogger (Some module_name)) ;;
  Logger_debug lg
    "Logging configured with basicConfig + RotatingFileHandler (no config file found)"
    [].

(** Lines 106-130. *)
Definition install_default : Py unit :=
  log_level <- console_stage ;;
  file_stage log_level ;;
  closing_report.

(** Lines 96-98. *)
Definition report_loaded (resolved_path : path) : Py unit :=
  lg <- lift (logging_getLogger (Some module_name)) ;;
  Logger_debug lg "Logging configured from file: %s" [path_str resolved_path].

(** Lines 101-104, inside the handler of [e]. *)
Definition report_failure (resolved_path : path) (e : exn) : Py unit :=
  lg <- lift (logging_getLogger (Some module_name)) ;;
  Logger_exception lg
    "Failed to configure logging from %s. Falling back to basicConfig."
    [path_str resolved_path] e.

(** Lines 95-98: what stands in the [try] before the [return]. *)
Definition try_body (resolved_path : path) : Py unit :=
  fileConfig (path_str resolved_path) false ;;
  report_loaded resolved_path.

(** Lines 93-104: [true] when the function returns from inside the
    [try], [false] when the default configuration is still to come. *)
Definition load_config (resolved_path : option path) : Py bool :=
  match resolved_path with
  | Some p =>
      py_try
        (try_body p ;;
         py_ret true)
        (fun e =>
           report_failure p e ;;
           py_ret false)
  | None => py_ret false
  end.

Definition setup_logging (config_path : option path_arg) (env_var : var_name)
    : Py unit :=
  resolved_path <- _resolve_logging_config_path config_path env_var ;;
  done <- load_config resolved_path ;;
  if done then py_ret tt else install_default.

(** Line 154. *)
Definition module_import : Py unit :=
  setup_logging None (Encodable "LOG_CFG").

(** The world in which line 106 is reached, if it is: nothing was
    resolved, or something in the [try] raised an [Exception] and the
    report of line 101 has returned. *)
Definition fallback_entry (config_path : option path_arg)
    (env_var : var_name) (w : world) : option world :=
  match _resolve_logging_config_path config_path env_var w with
  | (Done None, w0) => Some w0
  | (Done (Some p), w0) =>
      match try_body p w0 with
      | (Thrown (Exception e), w1) =>
          match report_failure p e w1 with
          | (Done _, w2) => Some w2
          | (Thrown _, _) => None
          end
      | _ => None
      end
  | (Thrown _, _) => None
  end.

(** The function returns from inside the [try], at line 99. *)
Definition returns_from_try (config_path : option path_arg)
    (env_var : var_name) (w : world) : bool :=
  match _resolve_logging_config_path config_path env_var w with
  | (Done (Some p), w0) =>
      match try_body p w0 with
      | (Done _, _) => true
      | (Thrown _, _) => false
      end
  | _ => false
  end.

End Code.


(** The handlers do their work without raising and without a trace in
    the world. *)
Definition handlers_silent (code : handler_code) : Prop :=
  (∀ r w, emit code r w = (Done tt, w))
  ∧ (∀ h w, close code h w = (Done tt, w)).

(** Closing any of the handlers [hs] returns and leaves no trace. *)
Definition closes_quietly (code : handler_code) (hs : list Handler) : Prop :=
  ∀ h, h ∈ hs → ∀ w, close code h w = (Done tt, w).


(** ** Sample loaders and handlers *)


Definition is_configured (h : Handler) : bool :=
  match h_sink h with
  | Configured _ => true
  | _ => false
  end.

(** Handlers of the kind [FileHandler(path, delay=True)] with a path in
    a directory that does not exist: as long as the root logger holds a
    handler made from a configuration file, emitting a record opens the
    file, outside any [try], and fails. *)
Definition unopenable_file_handlers : handler_code :=
  {| emit := fun _ w =>
       if existsb is_configured (lg_handlers (root (logging w)))
       then (Thrown (Exception FileNotFoundError), w)
       else (Done tt, w);
     close := fun _ => py_ret tt |}.

Definition rejecting_fileConfig : string -> bool -> Py unit :=
  fun _ _ => py_raise (Exception (ConfigError "malformed")).

(** A file whose root section is in order and whose next section is
    missing: the root logger gets its handler, then [KeyError]. *)
Definition half_configuring_fileConfig : string -> bool -> Py unit :=
  fun fname _ =>
    lift (Logger_addHandler RootLogger
            {| h_sink := Configured fname; h_level := NOTSET;
               h_formatter := None |}) ;;
    py_raise (Exception (ConfigError "KeyError")).

(** A well-formed file that puts one handler on the root logger. *)
Definition accepting_fileConfig : string -> bool -> Py unit :=
  fun fname _ =>
    lift (Logger_addHandler RootLogger
            {| h_sink := Configured fname; h_level := NOTSET;
               h_formatter := None |}).


End Handlers.

(** * Properties *)

(** ** Resolution of the configuration path *)

Lemma probe_spec (candidates : list path) (w : world) :
  probe candidates w
  = (Returned (List.find (exists_as_file (fs w)) candidates), w).
Proof.
  induction candidates as [|c rest IH]; [reflexivity|].
  cbn [probe List.find].
  unfold bind, try_except, is_file, exists_as_file, ret.
  destruct (faults (fs w) !! path_str c) as [e|].
  - exact IH.
  - destruct (bool_decide (nodes (fs w) !! path_str c = Some RegularFile));
      [reflexivity | exact IH].
Qed.

Lemma resolve_spec (o : option path_arg) (env_var : string) (w : world) :
  _resolve_logging_config_path o env_var w
  = (Returned (List.find (exists_as_file (fs w))
                 (build_candidates o (environ w !! env_var))), w).
Proof.
  unfold _resolve_logging_config_path, bind, getenv.
  apply probe_spec.
Qed.

Lemma build_candidates_spec (o : option path_arg) (v : option string) :
  build_candidates o v
  = ((if truthy_arg o then [Path_of (default (ArgStr "") o)] else [])
     ++ (if truthy_str v then [Path (default "" v)] else [])
     ++ [DEFAULT_LOGGING_CONF_PATH])%list.
Proof.
  unfold build_candidates.
  destruct o as [[s|p]|], v as [s'|];
    cbn [default truthy_arg truthy_str Path_of];
    repeat case_bool_decide; reflexivity.
Qed.

Lemma exists_as_file_forget_faulty (f : filesystem) (p : path) :
  exists_as_file (forget_faulty f) p = exists_as_file f p.
Proof.
  unfold exists_as_file, forget_faulty; cbn [faults nodes].
  rewrite lookup_empty.
  destruct (faults f !! path_str p) as [e|] eqn:Hf.
  - apply bool_decide_eq_false. intros H.
    apply map_lookup_filter_Some in H as [_ H]. cbn in H. congruence.
  - apply bool_decide_ext. split; intros H.
    + by apply map_lookup_filter_Some in H as [H _].
    + apply map_lookup_filter_Some. by split.
Qed.

Lemma find_ext_bool {A : Type} (f g : A → bool) (l : list A) :
  (∀ x, f x = g x) → List.find f l = List.find g l.
Proof.
  intros E. induction l as [|x l IH]; [reflexivity|].
  cbn. rewrite E, IH. reflexivity.
Qed.

(** C1. [_resolve_logging_config_path] goes through the candidates
    [override if given, value of the environment variable if set,
    config/logging.conf] in that order and returns the first one that
    exists as a regular file; an override that is given and exists as a
    regular file is returned whatever the environment variable and the
    default file are. *)
Theorem resolve_returns_first_existing_candidate
    (o : option path_arg) (env_var : string) (w : world) :
  let candidates := build_candidates o (environ w !! env_var) in
  candidates
  = ((if truthy_arg o then [Path_of (default (ArgStr "") o)] else [])
     ++ (if truthy_str (environ w !! env_var)
         then [Path (default "" (environ w !! env_var))] else [])
     ++ [DEFAULT_LOGGING_CONF_PATH])%list
  ∧ _resolve_logging_config_path o env_var w
    = (Returned (List.find (exists_as_file (fs w)) candidates), w)
  ∧ ∀ a, o = Some a → truthy_arg o = true →
         exists_as_file (fs w) (Path_of a) = true →
         _resolve_logging_config_path o env_var w
         = (Returned (Some (Path_of a)), w).
Proof.
  cbv zeta. split; [apply build_candidates_spec|].
  split; [apply resolve_spec|].
  intros a -> Ht Hex. rewrite resolve_spec, build_candidates_spec, Ht.
  cbn [default from_option id app List.find]. rewrite Hex. reflexivity.
Qed.

Lemma resolve_returns_first_existing_candidate_witness :
  _resolve_logging_config_path (Some (ArgStr "app.conf")) "LOG_CFG" conf_world
  = (Returned (Some (Path "app.conf")), conf_world).
Proof.
  apply (proj2 (proj2 (resolve_returns_first_existing_candidate
                         (Some (ArgStr "app.conf")) "LOG_CFG" conf_world))
           (ArgStr "app.conf")).
  - reflexivity.
  - reflexivity.
  - vm_compute. reflexivity.
Defined.

(** C8. An exception raised while a candidate is probed is swallowed and
    the candidate counts as absent; [_resolve_logging_config_path] never
    raises, returns [None] when no candidate exists, and leaves the
    logging state, the environment and the file system as they were. *)
Theorem resolve_swallows_probe_errors
    (o : option path_arg) (env_var : string) (w : world) :
  let candidates := build_candidates o (environ w !! env_var) in
  ∃ r : option path,
    _resolve_logging_config_path o env_var w = (Returned r, w)
    ∧ fst (_resolve_logging_config_path o env_var
             (set_fs (forget_faulty (fs w)) w)) = Returned r
    ∧ (r = None ↔ ∀ c, c ∈ candidates → exists_as_file (fs w) c = false)
    ∧ ∀ c, is_Some (faults (fs w) !! path_str c) → r ≠ Some c.
Proof.
  cbv zeta. eexists. split; [apply resolve_spec|].
  split; [|split].
  - rewrite resolve_spec. cbn [fst set_fs fs environ]. f_equal.
    apply find_ext_bool, exists_as_file_forget_faulty.
  - split.
    + intros Hn c Hc. apply list_elem_of_In in Hc.
      destruct (exists_as_file (fs w) c) eqn:E; [|reflexivity].
      pose proof (List.find_none _ _ Hn c Hc). congruence.
    + intros Hall.
      destruct (List.find _ _) as [c|] eqn:E; [|reflexivity].
      apply List.find_some in E as [Hin Hex].
      apply list_elem_of_In, Hall in Hin. congruence.
  - intros c [e He] E. apply List.find_some in E as [_ Hex].
    unfold exists_as_file in Hex. rewrite He in Hex. discriminate.
Qed.

(** C10. An empty override string and an environment variable set to the
    empty string count as absent: neither enters the candidate list.
    With the variable unset, [_resolve_logging_config_path("")] has the
    default path as its only candidate and returns it if it exists, else
    [None]. *)
Theorem resolve_ignores_empty_strings
    (o : option path_arg) (env_var : string) (w : world) :
  build_candidates (Some (ArgStr "")) (environ w !! env_var)
  = build_candidates None (environ w !! env_var)
  ∧ build_candidates o (Some "") = build_candidates o None
  ∧ _resolve_logging_config_path (Some (ArgStr "")) env_var w
    = _resolve_logging_config_path None env_var w
  ∧ build_candidates (Some (ArgStr "")) None = [DEFAULT_LOGGING_CONF_PATH]
  ∧ build_candidates (Some (ArgStr "")) (Some "") = [DEFAULT_LOGGING_CONF_PATH]
  ∧ fst (_resolve_logging_config_path o env_var
           (set_environ (<[env_var := ""]> (environ w)) w))
    = fst (_resolve_logging_config_path o env_var
             (set_environ (delete env_var (environ w)) w))
  ∧ (∀ s v, Path "" ∉ build_candidates (Some (ArgStr s)) v)
  ∧ (truthy_str (environ w !! env_var) = false →
     _resolve_logging_config_path (Some (ArgStr "")) env_var w
     = (Returned (if exists_as_file (fs w) DEFAULT_LOGGING_CONF_PATH
                  then Some DEFAULT_LOGGING_CONF_PATH else None), w)).
Proof.
  assert (build_candidates o (Some "") = build_candidates o None) as Hempty
    by (destruct o as [[s|p]|]; reflexivity).
  split; [reflexivity|].
  split; [exact Hempty|].
  split; [reflexivity|].
  split; [reflexivity|].
  split; [reflexivity|].
  split.
  { rewrite !resolve_spec. cbn [fst set_environ environ fs].
    rewrite lookup_insert_eq, lookup_delete_eq, Hempty. reflexivity. }
  split.
  { intros s v Hin. apply list_elem_of_In in Hin.
    rewrite build_candidates_spec in Hin.
    destruct v as [v|]; cbn [truthy_arg truthy_str] in Hin;
      repeat case_bool_decide; cbn in Hin;
      unfold DEFAULT_LOGGING_CONF_PATH in Hin; intuition congruence. }
  intros Hv. rewrite resolve_spec, build_candidates_spec, Hv.
  reflexivity.
Qed.

Lemma resolve_ignores_empty_strings_witness :
  _resolve_logging_config_path (Some (ArgStr "")) "LOG_CFG" bare_world
  = (Returned None, bare_world).
Proof.
  apply (proj2 (proj2 (proj2 (proj2 (proj2 (proj2 (proj2
           (resolve_ignores_empty_strings None "LOG_CFG" bare_world)))))))).
  reflexivity.
Defined.

(** ** The default configuration *)

Ltac conj := repeat match goal with |- _ ∧ _ => split end.

Ltac journal_tail :=
  match goal with
  | |- ∃ more, _ = _ ++ more =>
      eexists;
      first [ symmetry; apply app_nil_r
            | reflexivity
            | rewrite <- app_assoc; reflexivity ]
  end.

Lemma select_level_spec (w : world) :
  select_level w = (Returned (level_of_env (environ w)), w).
Proof.
  unfold select_level, bind, getenv_default, ret, level_of_env.
  destruct (environ w !! "DEBUG") as [v|]; cbn [default from_option id].
  - rewrite (bool_decide_ext (v = "1") (Some v = Some "1")); [reflexivity|].
    split; congruence.
  - reflexivity.
Qed.

Lemma parent_log_file : parent (Path "logs/app.log") = Path "logs".
Proof. reflexivity. Qed.

(** What [install_default] leaves, in both of its outcomes. *)
Lemma install_default_cases (w : world) :
  let lvl := level_of_env (environ w) in
  match install_default w with
  | (Returned _, w') =>
      fallback_ready (fs w) = true
      ∧ fallback_ready (fs w') = true
      ∧ lg_handlers (root (logging w')) = [console_handler; file_handler lvl]
      ∧ nodes (fs w') !! "logs" = Some Directory
      ∧ nodes (fs w') !! "logs/app.log" = Some RegularFile
      ∧ lg_level (root (logging w')) = lvl
      ∧ environ w' = environ w
      ∧ ∃ more, journal (logging w') = journal (logging w) ++ more
  | (Raised e, w') =>
      fallback_ready (fs w) = false
      ∧ fallback_ready (fs w') = false
      ∧ lg_handlers (root (logging w')) = [console_handler]
      ∧ lg_level (root (logging w')) = lvl
      ∧ environ w' = environ w
      ∧ ∃ more, journal (logging w') = journal (logging w) ++ more
  end.
Proof.
  cbv zeta. unfold install_default.
  unfold bind at 1. rewrite select_level_spec.
  rewrite parent_log_file.
  unfold RotatingFileHandler, Logger_debug.
  unfold bind, basicConfig, mkdir_exist_ok, open_append,
    logging_getLogger, Logger_addHandler, Logger_log, ret,
    fallback_ready.
  rewrite parent_log_file.
  cbn [set_logging set_fs add_node fs logging environ root objects loggerDict
       journal nodes faults path_str update_logger lg_name lg_level
       lg_handlers setLevel setFormatter h_sink h_level h_formatter
       fst snd app].
  destruct (faults (fs w) !! "logs") as [e1|] eqn:F1;
    [cbn; rewrite ?F1; conj; solve [reflexivity | journal_tail]|].
  destruct (faults (fs w) !! "logs/app.log") as [e2|] eqn:F2;
    destruct (nodes (fs w) !! "logs") as [[|]|] eqn:N1;
    destruct (nodes (fs w) !! "logs/app.log") as [[|]|] eqn:N2;
    cbn; simplify_map_eq; cbn.
  all: try (conj; solve [reflexivity | journal_tail]).
  all: destruct (bool_decide (module_name = "" ∨ _));
    [|destruct (loggerDict (logging w) !! module_name)];
    cbn; simplify_map_eq; conj; solve [reflexivity | journal_tail].
Qed.

(** ** The two reports and the three ways through [setup_logging] *)

(** Fetching the module's logger and calling one of its methods: no
    exception, one more entry in the journal, and nothing else changed
    but the registration of the module's logger at its first use. *)
Lemma getLogger_then_log (lvl : Z) (msg : string) (args : list string)
    (exc : option exn) (w : world) :
  ∃ h w',
    (lg <- logging_getLogger (Some module_name) ;;
     Logger_log lg lvl msg args exc) w = (Returned tt, w')
    ∧ fs w' = fs w
    ∧ environ w' = environ w
    ∧ root (logging w') = root (logging w)
    ∧ journal (logging w')
      = journal (logging w)
        ++ [{| rec_logger := h; rec_levelno := lvl; rec_msg := msg;
               rec_args := args; rec_exc_info := exc |}]
    ∧ (∃ new, objects (logging w') = objects (logging w) ++ new)
    ∧ (∀ n l, loggerDict (logging w) !! n = Some l →
              loggerDict (logging w') !! n = Some l).
Proof.
  unfold bind, logging_getLogger, Logger_log.
  destruct (bool_decide (module_name = "" ∨ _)).
  - eexists _, _. conj; try reflexivity; [by exists nil; rewrite app_nil_r | done].
  - destruct (loggerDict (logging w) !! module_name) as [l|] eqn:E.
    + eexists _, _. conj; try reflexivity;
        [by exists nil; rewrite app_nil_r | done].
    + eexists _, _. conj; try reflexivity; [by eexists|].
      intros n l Hn. cbn. rewrite lookup_insert_ne; [done | congruence].
Qed.

Section SetupFacts.

Variable fileConfig : string -> bool -> M unit.

Lemma setup_logging_no_config cfg ev w :
  fst (_resolve_logging_config_path cfg ev w) = Returned None →
  setup_logging fileConfig cfg ev w = install_default w.
Proof.
  rewrite resolve_spec. cbn [fst]. intros [= H].
  unfold setup_logging. unfold bind at 1. rewrite resolve_spec, H.
  reflexivity.
Qed.

Lemma setup_logging_loaded cfg ev w p u w1 :
  fst (_resolve_logging_config_path cfg ev w) = Returned (Some p) →
  fileConfig (path_str p) false w = (Returned u, w1) →
  setup_logging fileConfig cfg ev w
  = (Returned tt, snd (report_loaded p w1)).
Proof.
  rewrite resolve_spec. cbn [fst]. intros [= H] Hload.
  unfold setup_logging. unfold bind at 1. rewrite resolve_spec, H.
  unfold load_config, try_except. unfold bind at 1 2. rewrite Hload.
  destruct (getLogger_then_log DEBUG "Logging configured from file: %s"
              [path_str p] None w1) as (h & w' & E & _).
  unfold report_loaded, Logger_debug. unfold bind at 1. rewrite E.
  reflexivity.
Qed.

Lemma setup_logging_load_failed cfg ev w p e w1 :
  fst (_resolve_logging_config_path cfg ev w) = Returned (Some p) →
  fileConfig (path_str p) false w = (Raised e, w1) →
  setup_logging fileConfig cfg ev w
  = install_default (snd (report_failure p e w1)).
Proof.
  rewrite resolve_spec. cbn [fst]. intros [= H] Hload.
  unfold setup_logging. unfold bind at 1. rewrite resolve_spec, H.
  unfold load_config, try_except. unfold bind at 1 2. rewrite Hload.
  destruct (getLogger_then_log ERROR
              "Failed to configure logging from %s. Falling back to basicConfig."
              [path_str p] (Some e) w1) as (h & w' & E & _).
  unfold report_failure, Logger_exception. unfold bind at 1. rewrite E.
  reflexivity.
Qed.


Lemma takes_fallback_false cfg ev w :
  takes_fallback fileConfig cfg ev w = false →
  ∃ p u w1,
    fst (_resolve_logging_config_path cfg ev w) = Returned (Some p)
    ∧ fileConfig (path_str p) false w = (Returned u, w1)
    ∧ setup_logging fileConfig cfg ev w
      = (Returned tt, snd (report_loaded p w1)).
Proof.
  unfold takes_fallback, load_attempt. rewrite resolve_spec.
  destruct (List.find _ _) as [p|] eqn:F; [|discriminate].
  destruct (fileConfig (path_str p) false w) as [[u|e] w1] eqn:L;
    [|discriminate]. intros _.
  exists p, u, w1. split; [reflexivity|]. split; [exact L|].
  eapply setup_logging_loaded; [|exact L].
  rewrite resolve_spec, F. reflexivity.
Qed.

End SetupFacts.


(** ** Claims about [setup_logging] *)








(** ** [get_logger] *)

Lemma getLogger_total (n : option string) (w : world) :
  ∃ h w1, logging_getLogger n w = (Returned h, w1).
Proof.
  unfold logging_getLogger. destruct n as [n|]; [|by eexists _, _].
  destruct (bool_decide _); [by eexists _, _|].
  destruct (loggerDict (logging w) !! n); by eexists _, _.
Qed.

(** A second request for a name finds the logger of the first one. *)
Lemma getLogger_twice (n : string) (w : world) (h1 : handle) (w1 : world) :
  registry_wf (logging w) →
  logging_getLogger (Some n) w = (Returned h1, w1) →
  logging_getLogger (Some n) w1 = (Returned h1, w1)
  ∧ registry_wf (logging w1)
  ∧ is_Some (logger_at h1 (logging w1)).
Proof.
  intros Hwf. unfold logging_getLogger.
  destruct (bool_decide (n = "" ∨ n = lg_name (root (logging w)))) eqn:B.
  { intros [= <- <-]. rewrite B. by conj. }
  destruct (loggerDict (logging w) !! n) as [l|] eqn:D.
  { intros [= <- <-]. rewrite B, D. conj; try done.
    cbn [logger_at]. apply lookup_lt_is_Some_2. by eapply Hwf. }
  intros [= <- <-].
  cbn [logging set_logging root objects loggerDict logger_at].
  rewrite B, lookup_insert_eq. conj; try done.
  - intros m l. cbn [loggerDict objects]. rewrite lookup_insert.
    destruct (decide (n = m)) as [_|_].
    + intros [= E]. rewrite length_app. cbn. lia.
    + intros Hm. apply Hwf in Hm. rewrite length_app. lia.
  - apply lookup_lt_is_Some_2. rewrite length_app. cbn. lia.
Qed.

Lemma setLevel_then_read (h : handle) (lvl : Z) (w : world) :
  is_Some (logger_at h (logging w)) →
  lg_level <$> logger_at h (logging (snd (Logger_setLevel h lvl w))) = Some lvl.
Proof.
  intros [g Hg]. destruct h as [|l]; cbn in *; [reflexivity|].
  rewrite list_lookup_alter_eq, Hg. reflexivity.
Qed.

(** C9. [get_logger] never fails; without a name, or with the empty
    name, it asks for the logger [predictive_maintenance_system], and
    with any other name for the logger of that name; two calls with the
    same name return the same handle, so that a level set through the
    first handle is read through the second. *)
Theorem get_logger_shares_named_logger (name : option string) (w : world) :
  (∃ h w1, get_logger name w = (Returned h, w1))
  ∧ get_logger None w
    = logging_getLogger (Some "predictive_maintenance_system") w
  ∧ get_logger (Some "") w
    = logging_getLogger (Some "predictive_maintenance_system") w
  ∧ (∀ s, s ≠ "" → get_logger (Some s) w = logging_getLogger (Some s) w)
  ∧ (registry_wf (logging w) →
     ∀ h1 w1, get_logger name w = (Returned h1, w1) →
       get_logger name w1 = (Returned h1, w1)
       ∧ registry_wf (logging w1)
       ∧ ∀ h2 lvl, fst (get_logger name w1) = Returned h2 →
           lg_level <$> logger_at h2 (logging (snd (Logger_setLevel h1 lvl w1)))
           = Some lvl).
Proof.
  conj.
  - apply getLogger_total.
  - reflexivity.
  - reflexivity.
  - intros s Hs. unfold get_logger, truthy_str.
    rewrite bool_decide_eq_true_2 by done. reflexivity.
  - intros Hwf h1 w1 H1. unfold get_logger in *.
    destruct (getLogger_twice _ _ _ _ Hwf H1) as (H2 & Hwf1 & Hobj).
    conj; try done.
    intros h2 lvl Hh2. rewrite H2 in Hh2. injection Hh2 as <-.
    by apply setLevel_then_read.
Qed.

Lemma get_logger_shares_named_logger_witness :
  let w1 := snd (get_logger (Some "m") bare_world) in
  get_logger (Some "m") w1 = (Returned (LoggerAt 0), w1)
  ∧ lg_level <$> logger_at (LoggerAt 0)
                   (logging (snd (Logger_setLevel (LoggerAt 0) DEBUG w1)))
    = Some DEBUG.
Proof.
  cbv zeta.
  assert (registry_wf (logging bare_world)) as Hwf.
  { intros n l H. vm_compute in H. discriminate H. }
  destruct (proj2 (proj2 (proj2 (proj2
              (get_logger_shares_named_logger (Some "m") bare_world))))
              Hwf (LoggerAt 0) (snd (get_logger (Some "m") bare_world))
              eq_refl) as (H2 & _ & Hlvl).
  split; [exact H2|].
  apply Hlvl. rewrite H2. reflexivity.
Defined.

(** * Further properties *)

(** ** The registry invariant *)

Lemma registry_named_frame (s s' : logging_state) :
  objects s' = objects s → loggerDict s' = loggerDict s →
  registry_named s → registry_named s'.
Proof. intros Ho Hd H n l. rewrite Ho, Hd. apply H. Qed.

Lemma registry_named_fresh (s s' : logging_state) (n : string) (g : Logger) :
  objects s' = objects s ++ [g] →
  loggerDict s' = <[n := length (objects s)]> (loggerDict s) →
  lg_name g = n →
  registry_named s → registry_named s'.
Proof.
  intros Ho Hd Hg H m l. rewrite Ho, Hd, lookup_insert.
  destruct (decide (n = m)) as [<-|_].
  - intros [= <-]. by rewrite list_lookup_middle, <- Hg.
  - intros Hm. pose proof (H _ _ Hm) as Hl.
    rewrite lookup_app_l; [exact Hl|].
    apply lookup_lt_is_Some.
    destruct (objects s !! l); [by eexists | discriminate].
Qed.

Lemma registry_named_wf (s : logging_state) :
  registry_named s → registry_wf s.
Proof.
  intros H n l Hn. apply H in Hn. apply lookup_lt_is_Some.
  destruct (objects s !! l); [by eexists | discriminate].
Qed.

Ltac registry_step :=
  first [ eapply registry_named_frame; [reflexivity | reflexivity]
        | eapply registry_named_fresh; [reflexivity | reflexivity | reflexivity] ].

Ltac frame_tail :=
  match goal with
  | |- ∃ h new, _ = _ ++ [_] ∧ _ = _ ++ new =>
      eexists _, _; split;
      [ reflexivity
      | first [ symmetry; apply app_nil_r | reflexivity ] ]
  end.

(** Everything [install_default] does, outcome by outcome. *)
Lemma install_default_effects (w : world) :
  match install_default w with
  | (Returned _, w') =>
      faults (fs w') = faults (fs w)
      ∧ (∀ q, q ≠ "logs" → q ≠ "logs/app.log" →
              nodes (fs w') !! q = nodes (fs w) !! q)
      ∧ (nodes (fs w) !! "logs" = Some Directory →
         nodes (fs w) !! "logs/app.log" = Some RegularFile →
         fs w' = fs w)
      ∧ root (logging w')
        = {| lg_name := lg_name (root (logging w));
             lg_level := level_of_env (environ w);
             lg_handlers :=
               [console_handler; file_handler (level_of_env (environ w))] |}
      ∧ (∃ h new,
           journal (logging w') = journal (logging w) ++ [fallback_record h]
           ∧ objects (logging w') = objects (logging w) ++ new)
      ∧ (∀ n l, loggerDict (logging w) !! n = Some l →
                loggerDict (logging w') !! n = Some l)
      ∧ (registry_named (logging w) → registry_named (logging w'))
  | (Raised e, w') =>
      (faults (fs w') !! "logs" = Some e
       ∨ (e = FileExistsError ∧ nodes (fs w') !! "logs" = Some RegularFile)
       ∨ faults (fs w') !! "logs/app.log" = Some e
       ∨ (e = IsADirectoryError
          ∧ nodes (fs w') !! "logs/app.log" = Some Directory))
      ∧ faults (fs w') = faults (fs w)
      ∧ (∀ q, q ≠ "logs" → nodes (fs w') !! q = nodes (fs w) !! q)
      ∧ journal (logging w') = journal (logging w)
      ∧ objects (logging w') = objects (logging w)
      ∧ loggerDict (logging w') = loggerDict (logging w)
      ∧ lg_name (root (logging w')) = lg_name (root (logging w))
  end.
Proof.
  unfold install_default.
  unfold bind at 1. rewrite select_level_spec.
  rewrite parent_log_file.
  unfold RotatingFileHandler, Logger_debug.
  unfold bind, basicConfig, mkdir_exist_ok, open_append,
    logging_getLogger, Logger_addHandler, Logger_log, ret.
  rewrite parent_log_file.
  cbn [set_logging set_fs add_node fs logging environ root objects loggerDict
       journal nodes faults path_str update_logger lg_name lg_level
       lg_handlers setLevel setFormatter h_sink h_level h_formatter
       fst snd app].
  destruct (faults (fs w) !! "logs") as [e1|] eqn:F1;
    [cbn; rewrite ?F1; conj; solve [auto]|].
  destruct (faults (fs w) !! "logs/app.log") as [e2|] eqn:F2;
    destruct (nodes (fs w) !! "logs") as [[|]|] eqn:N1;
    destruct (nodes (fs w) !! "logs/app.log") as [[|]|] eqn:N2;
    cbn; simplify_map_eq; cbn.
  all: try (conj; solve [auto 6
                        | intros q Hq; by rewrite lookup_insert_ne]).
  all: destruct (bool_decide (module_name = "" ∨ _));
    [|destruct (loggerDict (logging w) !! module_name) eqn:D];
    cbn; simplify_map_eq; conj;
    try solve [ reflexivity | done | frame_tail | registry_step
              | intros q Hq1 Hq2; by rewrite ?lookup_insert_ne
              | intros n l Hn; cbn; rewrite ?lookup_insert_ne; congruence ].
Qed.

(** ** More on the resolution of the path *)

(** X1. When no override is given, or the override does not exist as a
    regular file, and the environment variable names a file that does,
    that file is returned, whether or not the default file exists. *)
Theorem env_path_wins_over_default
    (o : option path_arg) (env_var v : string) (w : world) :
  (truthy_arg o = false
   ∨ ∃ a, o = Some a ∧ exists_as_file (fs w) (Path_of a) = false) →
  environ w !! env_var = Some v →
  v ≠ "" →
  exists_as_file (fs w) (Path v) = true →
  _resolve_logging_config_path o env_var w = (Returned (Some (Path v)), w).
Proof.
  intros Ho Hv Hne Hex.
  rewrite resolve_spec, build_candidates_spec, Hv.
  cbn [truthy_str default from_option id].
  rewrite (bool_decide_eq_true_2 _ Hne).
  destruct Ho as [->|(a & -> & Ha)].
  - cbn [app List.find]. by rewrite Hex.
  - destruct (truthy_arg (Some a)); cbn [app List.find default from_option id];
      by rewrite ?Ha, Hex.
Qed.

Lemma env_path_wins_over_default_witness :
  _resolve_logging_config_path (Some (ArgStr "missing.conf")) "LOG_CFG" env_world
  = (Returned (Some (Path "etc/log.conf")), env_world).
Proof.
  apply (env_path_wins_over_default (Some (ArgStr "missing.conf")) "LOG_CFG"
           "etc/log.conf" env_world).
  - right. exists (ArgStr "missing.conf"). split; [reflexivity|].
    vm_compute. reflexivity.
  - vm_compute. reflexivity.
  - discriminate.
  - vm_compute. reflexivity.
Defined.

(** X2. An override that does not exist as a regular file, be it
    missing, a directory or impossible to probe, changes nothing: the
    result is the one without override.  Likewise an environment variable
    naming such a path gives the result of the variable being unset. *)
Theorem missing_candidate_is_skipped
    (o : option path_arg) (env_var : string) (w : world) :
  (∀ a, o = Some a → exists_as_file (fs w) (Path_of a) = false →
        _resolve_logging_config_path o env_var w
        = _resolve_logging_config_path None env_var w)
  ∧ (∀ v, environ w !! env_var = Some v →
          exists_as_file (fs w) (Path v) = false →
          fst (_resolve_logging_config_path o env_var w)
          = fst (_resolve_logging_config_path o env_var
                   (set_environ (delete env_var (environ w)) w))).
Proof.
  split.
  - intros a -> Ha. rewrite !resolve_spec, !build_candidates_spec.
    destruct (truthy_arg (Some a)); cbn [truthy_arg app List.find default
                                          from_option id];
      by rewrite ?Ha.
  - intros v Hv Hex. rewrite !resolve_spec, !build_candidates_spec.
    cbn [fst set_environ environ fs]. rewrite Hv, lookup_delete_eq.
    cbn [truthy_str default from_option id]. f_equal.
    destruct (truthy_arg o); cbn [app List.find];
      destruct (bool_decide (v ≠ "")); cbn [app List.find];
      by rewrite ?Hex.
Qed.

Lemma missing_candidate_is_skipped_witness :
  _resolve_logging_config_path (Some (ArgStr "missing.conf")) "LOG_CFG" env_world
  = _resolve_logging_config_path None "LOG_CFG" env_world.
Proof.
  apply (proj1 (missing_candidate_is_skipped (Some (ArgStr "missing.conf"))
                  "LOG_CFG" env_world) (ArgStr "missing.conf")).
  - reflexivity.
  - vm_compute. reflexivity.
Defined.

(** X3. A path returned by [_resolve_logging_config_path] is one for
    which [is_file] answers true in the world of the call, and it is the
    override, the value of the environment variable or the default path:
    never a directory, a path that cannot be probed, or anything else. *)
Theorem resolved_path_is_a_probed_candidate
    (o : option path_arg) (env_var : string) (w : world) (p : path) :
  fst (_resolve_logging_config_path o env_var w) = Returned (Some p) →
  is_file p w = (Returned true, w)
  ∧ nodes (fs w) !! path_str p = Some RegularFile
  ∧ faults (fs w) !! path_str p = None
  ∧ ((∃ a, o = Some a ∧ p = Path_of a)
     ∨ (∃ v, environ w !! env_var = Some v ∧ v ≠ "" ∧ p = Path v)
     ∨ p = DEFAULT_LOGGING_CONF_PATH).
Proof.
  rewrite resolve_spec. cbn [fst]. intros [= H].
  apply List.find_some in H as [Hin Hex].
  assert (faults (fs w) !! path_str p = None
          ∧ nodes (fs w) !! path_str p = Some RegularFile) as [Hf Hn].
  { unfold exists_as_file in Hex.
    destruct (faults (fs w) !! path_str p); [discriminate|].
    split; [reflexivity|]. by apply bool_decide_eq_true in Hex. }
  conj; try done.
  - unfold is_file. rewrite Hf, Hn. by rewrite bool_decide_eq_true_2.
  - rewrite build_candidates_spec in Hin.
    apply in_app_or in Hin as [Hin|Hin]; [|apply in_app_or in Hin as [Hin|Hin]].
    + left. destruct o as [a|]; [|by destruct Hin].
      destruct (truthy_arg (Some a)); [|by destruct Hin].
      destruct Hin as [<-|[]]. by exists a.
    + right; left. destruct (environ w !! env_var) as [v|]; [|by destruct Hin].
      cbn [truthy_str] in Hin. case_bool_decide; [|by destruct Hin].
      destruct Hin as [<-|[]]. by exists v.
    + right; right. by destruct Hin as [<-|[]].
Qed.

Lemma resolved_path_is_a_probed_candidate_witness :
  nodes (fs env_world) !! "etc/log.conf" = Some RegularFile.
Proof.
  assert (fst (_resolve_logging_config_path None "LOG_CFG" env_world)
          = Returned (Some (Path "etc/log.conf"))) as H
    by (vm_compute; reflexivity).
  exact (proj1 (proj2 (resolved_path_is_a_probed_candidate
                         None "LOG_CFG" env_world (Path "etc/log.conf") H))).
Defined.

(** ** More on [setup_logging] *)

Lemma getLogger_then_log_named (lvl : Z) (msg : string) (args : list string)
    (exc : option exn) (w : world) :
  registry_named (logging w) →
  registry_named (logging (snd
    ((lg <- logging_getLogger (Some module_name) ;;
      Logger_log lg lvl msg args exc) w))).
Proof.
  unfold bind, logging_getLogger, Logger_log.
  destruct (bool_decide (module_name = "" ∨ _)); [cbn; registry_step|].
  destruct (loggerDict (logging w) !! module_name); cbn; registry_step.
Qed.

Section FallbackFacts.

Variable fileConfig : string -> bool -> M unit.

(** The fallback path: [install_default] runs from a world that differs
    from the one the load left by the report of the failure, if any. *)
Lemma fallback_start cfg ev w :
  takes_fallback fileConfig cfg ev w = true →
  let w0 := after_load fileConfig cfg ev w in
  ∃ w1,
    setup_logging fileConfig cfg ev w = install_default w1
    ∧ fs w1 = fs w0
    ∧ environ w1 = environ w0
    ∧ root (logging w1) = root (logging w0)
    ∧ (∃ new, objects (logging w1) = objects (logging w0) ++ new)
    ∧ (∀ n l, loggerDict (logging w0) !! n = Some l →
              loggerDict (logging w1) !! n = Some l)
    ∧ (registry_named (logging w0) → registry_named (logging w1))
    ∧ ((fst (_resolve_logging_config_path cfg ev w) = Returned None
        ∧ w1 = w ∧ w0 = w)
       ∨ ∃ p e h,
           fst (_resolve_logging_config_path cfg ev w) = Returned (Some p)
           ∧ fileConfig (path_str p) false w = (Raised e, w0)
           ∧ journal (logging w1)
             = journal (logging w0) ++ [failure_record h p e]).
Proof.
  cbv zeta. unfold takes_fallback, after_load, load_attempt.
  rewrite resolve_spec.
  destruct (List.find _ _) as [p|] eqn:F.
  - destruct (fileConfig (path_str p) false w) as [[u|e] w0] eqn:L;
      [discriminate|]. intros _.
    destruct (getLogger_then_log ERROR
                "Failed to configure logging from %s. Falling back to basicConfig."
                [path_str p] (Some e) w0)
      as (h & w1 & E & Hfs & Henv & Hroot & Hj & Hobj & Hdict).
    pose proof (getLogger_then_log_named ERROR
                  "Failed to configure logging from %s. Falling back to basicConfig."
                  [path_str p] (Some e) w0) as Hnamed.
    rewrite E in Hnamed. cbn [snd] in Hnamed.
    change (report_failure p e w0 = (Returned (), w1)) in E.
    exists w1. conj; try done.
    + erewrite setup_logging_load_failed; [by rewrite E| |exact L].
      rewrite resolve_spec, F. reflexivity.
    + right. exists p, e, h. conj; [reflexivity | exact L | exact Hj].
  - intros _. exists w. conj; try done.
    + apply setup_logging_no_config. rewrite resolve_spec, F. reflexivity.
    + by exists nil; rewrite app_nil_r.
    + by left.
Qed.

End FallbackFacts.

(** X6. The fallback reconfigures the root logger only: although
    [force=True] clears the root logger's handlers, every logger object
    that existed when the fallback started is still registered under its
    name with its level and its handlers, and the root logger keeps its
    name. *)
Theorem fallback_leaves_named_loggers_alone
    (fileConfig : string → bool → M unit)
    (cfg : option path_arg) (ev : string) (w : world) :
  takes_fallback fileConfig cfg ev w = true →
  let w0 := after_load fileConfig cfg ev w in
  let w' := snd (setup_logging fileConfig cfg ev w) in
  lg_name (root (logging w')) = lg_name (root (logging w0))
  ∧ (∀ l g, objects (logging w0) !! l = Some g →
            objects (logging w') !! l = Some g)
  ∧ (∀ n l, loggerDict (logging w0) !! n = Some l →
            loggerDict (logging w') !! n = Some l).
Proof.
  intros T. cbv zeta.
  destruct (fallback_start _ _ _ _ T)
    as (w1 & -> & _ & _ & Hroot & (new & Hobj) & Hdict & _).
  pose proof (install_default_effects w1) as H.
  pose proof (install_default_cases w1) as C. cbv zeta in C.
  rewrite <- Hroot.
  destruct (install_default w1) as [[[]|e] w']; cbn [snd].
  - destruct H as (_ & _ & _ & -> & (h & new' & _ & Hobj') & Hdict' & _).
    conj; [reflexivity| |by auto].
    intros l g Hg. rewrite Hobj', Hobj.
    rewrite !lookup_app_l; [exact Hg| |];
      rewrite ?length_app; apply lookup_lt_Some in Hg; lia.
  - destruct H as (_ & _ & _ & _ & -> & -> & ->).
    conj; [reflexivity| |by auto].
    intros l g Hg. rewrite Hobj. rewrite lookup_app_l; [exact Hg|].
    by apply lookup_lt_Some in Hg.
Qed.

Lemma fallback_leaves_named_loggers_alone_witness :
  let w := snd (get_logger (Some "sensors") bare_world) in
  objects (logging (snd (setup_logging rejecting_fileConfig None "LOG_CFG" w)))
    !! 0%nat
  = Some {| lg_name := "sensors"; lg_level := NOTSET; lg_handlers := [] |}.
Proof.
  cbv zeta.
  assert (takes_fallback rejecting_fileConfig None "LOG_CFG"
            (snd (get_logger (Some "sensors") bare_world)) = true) as T
    by (vm_compute; reflexivity).
  apply (proj1 (proj2 (fallback_leaves_named_loggers_alone
                         rejecting_fileConfig None "LOG_CFG"
                         (snd (get_logger (Some "sensors") bare_world)) T))).
  vm_compute. reflexivity.
Defined.

(** ** More on [get_logger] *)

Lemma get_logger_requested (name : option string) (w : world) :
  get_logger name w = logging_getLogger (Some (requested_name name)) w.
Proof.
  unfold get_logger, requested_name, truthy_str.
  destruct name as [s|]; [|reflexivity].
  destruct (bool_decide (s ≠ "")); reflexivity.
Qed.

Lemma requested_name_nonempty (name : option string) :
  requested_name name ≠ "".
Proof.
  unfold requested_name. destruct name as [s|]; [|discriminate].
  case_bool_decide; [assumption | discriminate].
Qed.

(** The logger handed out for a name bears that name, and the objects
    that existed are not touched. *)
Lemma getLogger_named (n : string) (w : world) (h : handle) (w1 : world) :
  n ≠ "" →
  registry_named (logging w) →
  logging_getLogger (Some n) w = (Returned h, w1) →
  registry_named (logging w1)
  ∧ lg_name <$> logger_at h (logging w1) = Some n
  ∧ root (logging w1) = root (logging w)
  ∧ ∀ l g, objects (logging w) !! l = Some g →
           objects (logging w1) !! l = Some g.
Proof.
  intros Hne Hnamed. unfold logging_getLogger.
  case_bool_decide as B.
  { intros [= <- <-]. conj; try done. cbn.
    destruct B as [B|B]; [done | by rewrite B]. }
  destruct (loggerDict (logging w) !! n) as [l|] eqn:D.
  { intros [= <- <-]. conj; try done. cbn. by apply Hnamed. }
  intros [= <- <-]. cbn [logging set_logging logger_at objects root].
  conj; try done.
  - by eapply registry_named_fresh.
  - by rewrite list_lookup_middle.
  - intros l g Hg. rewrite lookup_app_l; [exact Hg|].
    by apply lookup_lt_Some in Hg.
Qed.

(** X10. In a consistent registry [get_logger] hands out a logger that
    bears the requested name, the default name when none or the empty one
    is given, and requests for two different names are answered with two
    different loggers, the first of which is still there, under its name,
    after the second request. *)
Theorem get_logger_distinct_names_distinct_loggers
    (name1 name2 : option string) (w w1 w2 : world) (h1 h2 : handle) :
  registry_named (logging w) →
  requested_name name1 ≠ requested_name name2 →
  get_logger name1 w = (Returned h1, w1) →
  get_logger name2 w1 = (Returned h2, w2) →
  h1 ≠ h2
  ∧ lg_name <$> logger_at h1 (logging w2) = Some (requested_name name1)
  ∧ lg_name <$> logger_at h2 (logging w2) = Some (requested_name name2)
  ∧ registry_named (logging w2).
Proof.
  intros Hnamed Hdiff H1 H2. rewrite get_logger_requested in H1, H2.
  destruct (getLogger_named _ _ _ _ (requested_name_nonempty name1) Hnamed H1)
    as (Hnamed1 & Hn1 & _ & _).
  destruct (getLogger_named _ _ _ _ (requested_name_nonempty name2) Hnamed1 H2)
    as (Hnamed2 & Hn2 & Hroot & Hkeep).
  assert (lg_name <$> logger_at h1 (logging w2) = Some (requested_name name1))
    as Hn1'.
  { destruct h1 as [|l]; cbn in *; [by rewrite Hroot|].
    destruct (objects (logging w1) !! l) as [g|] eqn:G; [|discriminate].
    by rewrite (Hkeep _ _ G). }
  conj; try done.
  intros ->. rewrite Hn1' in Hn2. congruence.
Qed.

Lemma get_logger_distinct_names_distinct_loggers_witness :
  let r1 := get_logger None bare_world in
  let r2 := get_logger (Some "sensors") (snd r1) in
  fst r1 ≠ fst r2.
Proof.
  cbv zeta.
  assert (registry_named (logging bare_world)) as Hn.
  { intros n l H. vm_compute in H. discriminate H. }
  assert (requested_name None ≠ requested_name (Some "sensors")) as Hd
    by discriminate.
  pose proof (proj1 (get_logger_distinct_names_distinct_loggers
                None (Some "sensors") bare_world
                (snd (get_logger None bare_world))
                (snd (get_logger (Some "sensors")
                        (snd (get_logger None bare_world))))
                (LoggerAt 0) (LoggerAt 1) Hn Hd eq_refl eq_refl)) as H.
  intros E. apply H. vm_compute in E. discriminate E.
Defined.

(** ** The environment variables that matter *)

Lemma bind_returned {A B : Type} (m : M A) (k : A → M B)
    (w : world) (a : A) (w1 : world) :
  m w = (Returned a, w1) → bind m k w = k a w1.
Proof. intros H. unfold bind. by rewrite H. Qed.






(** * The handlers at work: properties *)

Lemma py_bind_done {A B : Type} (m : Handlers.Py A) (k : A → Handlers.Py B)
    (w : world) (a : A) (w1 : world) :
  m w = (Handlers.Done a, w1) → Handlers.py_bind m k w = k a w1.
Proof. intros H. unfold Handlers.py_bind. by rewrite H. Qed.

Lemma py_bind_thrown {A B : Type} (m : Handlers.Py A) (k : A → Handlers.Py B)
    (w : world) (x : Handlers.pyexn) (w1 : world) :
  m w = (Handlers.Thrown x, w1) →
  Handlers.py_bind m k w = (Handlers.Thrown x, w1).
Proof. intros H. unfold Handlers.py_bind. by rewrite H. Qed.

Lemma lift_returned {A : Type} (m : M A) (w : world) (a : A) (w1 : world) :
  m w = (Returned a, w1) → Handlers.lift m w = (Handlers.Done a, w1).
Proof. intros H. unfold Handlers.lift. by rewrite H. Qed.

Lemma lift_raised {A : Type} (m : M A) (w : world) (e : exn) (w1 : world) :
  m w = (Raised e, w1) →
  Handlers.lift m w = (Handlers.Thrown (Handlers.Exception e), w1).
Proof. intros H. unfold Handlers.lift. by rewrite H. Qed.

(** With a name that can be encoded the resolution is that of the first
    part; with one that cannot, the lookup of line 60 raises. *)
Lemma handlers_resolve_spec (o : option path_arg) (s : string) (w : world) :
  Handlers._resolve_logging_config_path o (Handlers.Encodable s) w
  = (Handlers.Done (List.find (exists_as_file (fs w))
                      (build_candidates o (environ w !! s))), w).
Proof.
  unfold Handlers._resolve_logging_config_path, Handlers.getenv.
  erewrite py_bind_done; [|by apply lift_returned].
  apply lift_returned, probe_spec.
Qed.

Lemma handlers_resolve_unencodable (o : option path_arg) (w : world) :
  Handlers._resolve_logging_config_path o Handlers.Unencodable w
  = (Handlers.Thrown (Handlers.Exception ValueError), w).
Proof. reflexivity. Qed.

(** The loop of [basicConfig] under [force], when closing leaves no
    trace: the root logger ends without handlers, the rest is as it
    was. *)
Lemma close_each_quiet (code : Handlers.handler_code) (hs : list Handler)
    (w : world) :
  Handlers.closes_quietly code hs →
  lg_handlers (root (logging w)) = hs →
  ∃ w', Handlers.close_each code hs w = (Handlers.Done tt, w')
        ∧ fs w' = fs w
        ∧ environ w' = environ w
        ∧ objects (logging w') = objects (logging w)
        ∧ loggerDict (logging w') = loggerDict (logging w)
        ∧ journal (logging w') = journal (logging w)
        ∧ lg_name (root (logging w')) = lg_name (root (logging w))
        ∧ lg_level (root (logging w')) = lg_level (root (logging w))
        ∧ lg_handlers (root (logging w')) = [].
Proof.
  revert w. induction hs as [|h rest IH]; intros w Hq Hhs.
  - exists w. by conj.
  - cbn [Handlers.close_each].
    erewrite py_bind_done; [|reflexivity].
    erewrite py_bind_done; [|apply Hq; by left].
    destruct (IH (set_logging
                    (update_logger RootLogger
                       (fun g => {| lg_name := lg_name g;
                                    lg_level := lg_level g;
                                    lg_handlers :=
                                      remove_first h (lg_handlers g) |})
                       (logging w)) w))
      as (w' & E & H).
    + intros h' Hh'. apply Hq. by right.
    + cbn. rewrite Hhs. cbn. by rewrite decide_True.
    + exists w'. split; [exact E|]. exact H.
Qed.

Lemma basicConfig_on_empty (lvl : Z) (f d : string) (w : world) :
  lg_handlers (root (logging w)) = [] →
  basicConfig lvl f d false w
  = (Returned tt,
     set_logging
       {| root :=
            {| lg_name := lg_name (root (logging w)); lg_level := lvl;
               lg_handlers :=
                 [{| h_sink := Console; h_level := NOTSET;
                     h_formatter := Some {| fmt := f; datefmt := d |} |}] |};
          objects := objects (logging w);
          loggerDict := loggerDict (logging w);
          journal := journal (logging w) |} w).
Proof. intros H. unfold basicConfig. cbn. by rewrite H. Qed.

(** Lines 107-114 when closing the replaced handlers leaves no trace. *)
Lemma console_stage_quiet (code : Handlers.handler_code) (w : world) :
  Handlers.closes_quietly code (lg_handlers (root (logging w))) →
  ∃ w', Handlers.console_stage code w
        = (Handlers.Done (level_of_env (environ w)), w')
        ∧ fs w' = fs w
        ∧ environ w' = environ w
        ∧ objects (logging w') = objects (logging w)
        ∧ loggerDict (logging w') = loggerDict (logging w)
        ∧ journal (logging w') = journal (logging w)
        ∧ root (logging w')
          = {| lg_name := lg_name (root (logging w));
               lg_level := level_of_env (environ w);
               lg_handlers := [console_handler] |}.
Proof.
  intros Hq.
  destruct (close_each_quiet code _ w Hq eq_refl)
    as (w1 & E & Hfs & Henv & Hobj & Hdict & Hj & Hname & _ & Hnil).
  unfold Handlers.console_stage.
  erewrite py_bind_done; [|apply lift_returned, select_level_spec].
  unfold Handlers.basicConfig.
  erewrite py_bind_done;
    [|erewrite py_bind_done; [|exact E];
      apply lift_returned, basicConfig_on_empty, Hnil].
  eexists. split; [reflexivity|].
  cbn. rewrite Hname, Hobj, Hdict, Hj. by conj.
Qed.


(** A report, that is the module's logger fetched and one of its methods
    called, is the entry in the journal followed by the handlers'
    work on the record. *)
Lemma report_is_emit (code : Handlers.handler_code) (lvl : Z) (msg : string)
    (args : list string) (exc : option exn) (w : world) :
  ∃ h w1,
    (Handlers.py_bind (Handlers.lift (logging_getLogger (Some module_name)))
       (fun lg => Handlers.Logger_log code lg lvl msg args exc)) w
    = Handlers.emit code
        {| rec_logger := h; rec_levelno := lvl; rec_msg := msg;
           rec_args := args; rec_exc_info := exc |} w1
    ∧ fs w1 = fs w
    ∧ environ w1 = environ w
    ∧ root (logging w1) = root (logging w)
    ∧ journal (logging w1)
      = journal (logging w)
        ++ [{| rec_logger := h; rec_levelno := lvl; rec_msg := msg;
               rec_args := args; rec_exc_info := exc |}].
Proof.
  unfold Handlers.Logger_log, Handlers.py_bind, Handlers.lift,
    logging_getLogger, Logger_log.
  destruct (bool_decide (module_name = "" ∨ _));
    [eexists _, _; conj; reflexivity|].
  destruct (loggerDict (logging w) !! module_name);
    eexists _, _; conj; reflexivity.
Qed.



Section HandlersFacts.

Variable fileConfig : string → bool → Handlers.Py unit.
Variable code : Handlers.handler_code.


Lemma returns_from_try_returns cfg ev w :
  Handlers.returns_from_try fileConfig code cfg ev w = true →
  ∃ w', Handlers.setup_logging fileConfig code cfg ev w
        = (Handlers.Done tt, w').
Proof.
  unfold Handlers.returns_from_try, Handlers.setup_logging.
  unfold Handlers.py_bind at 1.
  destruct (Handlers._resolve_logging_config_path cfg ev w)
    as [[[p|]|x] w0]; try discriminate.
  unfold Handlers.py_bind at 1. unfold Handlers.load_config, Handlers.py_try.
  unfold Handlers.py_bind at 1.
  destruct (Handlers.try_body fileConfig code p w0) as [[u|x] w1];
    [|discriminate].
  intros _. by eexists.
Qed.

End HandlersFacts.

(** ** Claims about [setup_logging], with the handlers at work *)



Lemma py_try_done {A : Type} (m : Handlers.Py A) (h : exn → Handlers.Py A)
    (w : world) (a : A) (w1 : world) :
  m w = (Handlers.Done a, w1) → Handlers.py_try m h w = (Handlers.Done a, w1).
Proof. intros H. unfold Handlers.py_try. by rewrite H. Qed.

Lemma py_try_caught {A : Type} (m : Handlers.Py A) (h : exn → Handlers.Py A)
    (w : world) (e : exn) (w1 : world) :
  m w = (Handlers.Thrown (Handlers.Exception e), w1) →
  Handlers.py_try m h w = h e w1.
Proof. intros H. unfold Handlers.py_try. by rewrite H. Qed.





Section HandlersPaths.

Variable fileConfig : string → bool → Handlers.Py unit.
Variable code : Handlers.handler_code.

(** The ways through [setup_logging], by what the resolution gives and
    how the body of the [try] ends. *)
Lemma handlers_no_config cfg s w :
  fst (_resolve_logging_config_path cfg s w) = Returned None →
  Handlers.setup_logging fileConfig code cfg (Handlers.Encodable s) w
  = Handlers.install_default code w
  ∧ Handlers.fallback_entry fileConfig code cfg (Handlers.Encodable s) w
    = Some w
  ∧ Handlers.returns_from_try fileConfig code cfg (Handlers.Encodable s) w
    = false.
Proof.
  rewrite resolve_spec. cbn [fst]. intros [= H].
  unfold Handlers.setup_logging, Handlers.fallback_entry,
    Handlers.returns_from_try.
  rewrite (py_bind_done _ _ _ _ _ (handlers_resolve_spec cfg s w)).
  rewrite handlers_resolve_spec, H. by conj.
Qed.

Lemma handlers_try_done cfg s w p u w2 :
  fst (_resolve_logging_config_path cfg s w) = Returned (Some p) →
  Handlers.try_body fileConfig code p w = (Handlers.Done u, w2) →
  Handlers.setup_logging fileConfig code cfg (Handlers.Encodable s) w
  = (Handlers.Done tt, w2)
  ∧ Handlers.returns_from_try fileConfig code cfg (Handlers.Encodable s) w
    = true.
Proof.
  rewrite resolve_spec. cbn [fst]. intros [= H] Hbody.
  unfold Handlers.setup_logging, Handlers.returns_from_try.
  rewrite (py_bind_done _ _ _ _ _ (handlers_resolve_spec cfg s w)).
  rewrite handlers_resolve_spec, H, Hbody. split; [|reflexivity].
  unfold Handlers.load_config.
  erewrite py_bind_done;
    [|apply py_try_done; erewrite py_bind_done; [|exact Hbody]; reflexivity].
  reflexivity.
Qed.

Lemma handlers_try_caught cfg s w p e w1 :
  fst (_resolve_logging_config_path cfg s w) = Returned (Some p) →
  Handlers.try_body fileConfig code p w
  = (Handlers.Thrown (Handlers.Exception e), w1) →
  Handlers.setup_logging fileConfig code cfg (Handlers.Encodable s) w
  = Handlers.py_bind (Handlers.report_failure code p e)
      (fun _ => Handlers.install_default code) w1
  ∧ Handlers.returns_from_try fileConfig code cfg (Handlers.Encodable s) w
    = false
  ∧ Handlers.fallback_entry fileConfig code cfg (Handlers.Encodable s) w
    = match Handlers.report_failure code p e w1 with
      | (Handlers.Done _, w2) => Some w2
      | (Handlers.Thrown _, _) => None
      end.
Proof.
  rewrite resolve_spec. cbn [fst]. intros [= H] Hbody.
  unfold Handlers.setup_logging, Handlers.returns_from_try,
    Handlers.fallback_entry.
  rewrite (py_bind_done _ _ _ _ _ (handlers_resolve_spec cfg s w)).
  rewrite handlers_resolve_spec, H, Hbody. split; [|by split].
  unfold Handlers.load_config.
  unfold Handlers.py_bind at 1.
  erewrite py_try_caught;
    [|erewrite py_bind_thrown; [|exact Hbody]; reflexivity].
  unfold Handlers.py_bind.
  by destruct (Handlers.report_failure code p e w1) as [[[]|x] w2].
Qed.


End HandlersPaths.



(** C5. When a path is resolved and loading it raises an [Exception],
    [setup_logging] catches it and calls [exception] on the module's
    logger: the call is entered in the journal at severity ERROR with the
    exception attached, and the record goes to the handlers in place,
    those the failed load has left.  If they take it without raising, the
    call goes on with the default configuration; if one of them raises,
    line 101 standing outside any [try], that exception reaches the
    caller and nothing of the default configuration is installed. *)
Theorem failure_report_decides_the_fallback
    (fileConfig : string → bool → Handlers.Py unit)
    (code : Handlers.handler_code)
    (cfg : option path_arg) (s : string) (w : world)
    (p : path) (e : exn) (w1 : world) :
  fst (_resolve_logging_config_path cfg s w) = Returned (Some p) →
  fileConfig (path_str p) false w
  = (Handlers.Thrown (Handlers.Exception e), w1) →
  let call := Handlers.setup_logging fileConfig code cfg
                (Handlers.Encodable s) w in
  (∃ h w1',
     Handlers.report_failure code p e w1
     = Handlers.emit code (failure_record h p e) w1'
     ∧ journal (logging w1') = journal (logging w1) ++ [failure_record h p e]
     ∧ rec_levelno (failure_record h p e) = ERROR
     ∧ rec_exc_info (failure_record h p e) = Some e
     ∧ fs w1' = fs w1
     ∧ root (logging w1') = root (logging w1))
  ∧ (∀ w2, Handlers.report_failure code p e w1 = (Handlers.Done tt, w2) →
           call = Handlers.install_default code w2)
  ∧ (∀ x w2, Handlers.report_failure code p e w1 = (Handlers.Thrown x, w2) →
             call = (Handlers.Thrown x, w2)).
Proof.
  intros Hr L. cbv zeta.
  assert (Handlers.try_body fileConfig code p w
          = (Handlers.Thrown (Handlers.Exception e), w1)) as Hbody.
  { unfold Handlers.try_body. by rewrite (py_bind_thrown _ _ _ _ _ L). }
  destruct (handlers_try_caught fileConfig code cfg s w p e w1 Hr Hbody)
    as (-> & _).
  conj.
  - destruct (report_is_emit code ERROR
                "Failed to configure logging from %s. Falling back to basicConfig."
                [path_str p] (Some e) w1) as (h & w2 & E & Hfs & _ & Hroot & Hj).
    exists h, w2. by conj.
  - intros w2 E. by rewrite (py_bind_done _ _ _ _ _ E).
  - intros x w2 E. by rewrite (py_bind_thrown _ _ _ _ _ E).
Qed.

Lemma failure_report_decides_the_fallback_witness :
  let r := Handlers.setup_logging Handlers.half_configuring_fileConfig
             Handlers.unopenable_file_handlers
             (Some (ArgStr "app.conf")) (Handlers.Encodable "LOG_CFG")
             conf_world in
  fst r = Handlers.Thrown (Handlers.Exception FileNotFoundError)
  ∧ lg_handlers (root (logging (snd r)))
    = [{| h_sink := Configured "app.conf"; h_level := NOTSET;
          h_formatter := None |}].
Proof.
  cbv zeta.
  assert (fst (_resolve_logging_config_path (Some (ArgStr "app.conf"))
                 "LOG_CFG" conf_world) = Returned (Some (Path "app.conf")))
    as Hr by (vm_compute; reflexivity).
  rewrite (proj2 (proj2 (failure_report_decides_the_fallback
             Handlers.half_configuring_fileConfig
             Handlers.unopenable_file_handlers
             (Some (ArgStr "app.conf")) "LOG_CFG" conf_world
             (Path "app.conf") (ConfigError "KeyError")
             (snd (Handlers.half_configuring_fileConfig "app.conf" false
                     conf_world))
             Hr eq_refl))
           (Handlers.Exception FileNotFoundError)
           (snd (Handlers.report_failure Handlers.unopenable_file_handlers
                   (Path "app.conf") (ConfigError "KeyError")
                   (snd (Handlers.half_configuring_fileConfig "app.conf" false
                           conf_world))))).
  - split; vm_compute; reflexivity.
  - vm_compute. reflexivity.
Defined.



(** ** The first part as the module with silent handlers *)

Lemma install_default_with_silent_handlers (code : Handlers.handler_code)
    (w : world) :
  Handlers.handlers_silent code →
  Handlers.install_default code w = Handlers.lift install_default w.
Proof.
  intros [He Hc].
  destruct (console_stage_quiet code w)
    as (w2 & E2 & Hfs & Henv & Hobj & Hdict & Hj & Hroot);
    [by intros h _ w0|].
  assert (w2 = set_logging
                 {| root :=
                      {| lg_name := lg_name (root (logging w));
                         lg_level := level_of_env (environ w);
                         lg_handlers := [console_handler] |};
                    objects := objects (logging w);
                    loggerDict := loggerDict (logging w);
                    journal := journal (logging w) |} w) as ->.
  { destruct w2 as [env2 fs2 [r2 o2 d2 j2]]. cbn in *. by subst. }
  unfold Handlers.install_default.
  rewrite (py_bind_done _ _ _ _ _ E2).
  unfold Handlers.lift at 1. unfold install_default.
  rewrite (bind_returned select_level _ w _ _ (select_level_spec w)).
  unfold Handlers.file_stage, Handlers.closing_report, Handlers.Logger_debug,
    Handlers.Logger_log.
  rewrite !parent_log_file.
  unfold RotatingFileHandler, Logger_debug.
  unfold Handlers.py_bind, Handlers.lift, bind, basicConfig, mkdir_exist_ok,
    open_append, logging_getLogger, Logger_addHandler, Logger_log, ret.
  rewrite !parent_log_file.
  cbn [set_logging set_fs add_node fs logging environ root objects loggerDict
       journal nodes faults path_str update_logger lg_name lg_level
       lg_handlers setLevel setFormatter h_sink h_level h_formatter
       fst snd app].
  destruct (faults (fs w) !! "logs") as [e1|]; [reflexivity|].
  destruct (nodes (fs w) !! "logs") as [[|]|] eqn:N1; cbn;
    rewrite ?N1; simplify_map_eq; try reflexivity.
  all: destruct (faults (fs w) !! "logs/app.log") as [e2|]; [reflexivity|].
  all: destruct (nodes (fs w) !! "logs/app.log") as [[|]|]; cbn;
    try reflexivity.
  all: destruct (bool_decide (module_name = "" ∨ _)); [by rewrite He|].
  all: destruct (loggerDict (logging w) !! module_name); by rewrite He.
Qed.

Lemma report_with_silent_handlers (code : Handlers.handler_code) (lvl : Z)
    (msg : string) (args : list string) (exc : option exn) (w : world) :
  Handlers.handlers_silent code →
  (Handlers.py_bind (Handlers.lift (logging_getLogger (Some module_name)))
     (fun lg => Handlers.Logger_log code lg lvl msg args exc)) w
  = Handlers.lift
      (bind (logging_getLogger (Some module_name))
         (fun lg => Logger_log lg lvl msg args exc)) w.
Proof.
  intros [He _].
  unfold Handlers.Logger_log, Handlers.py_bind, Handlers.lift, bind,
    logging_getLogger, Logger_log.
  destruct (bool_decide (module_name = "" ∨ _)); [by rewrite He|].
  destruct (loggerDict (logging w) !! module_name); by rewrite He.
Qed.

(** With handlers that leave no trace, a loader that raises
    [Exception]s only and a variable name that can be encoded, the module
    is the one of the first part. *)
Lemma setup_logging_with_silent_handlers
    (fileConfig : string → bool → M unit) (code : Handlers.handler_code)
    (cfg : option path_arg) (s : string) (w : world) :
  Handlers.handlers_silent code →
  Handlers.setup_logging (fun f b => Handlers.lift (fileConfig f b)) code
    cfg (Handlers.Encodable s) w
  = Handlers.lift (setup_logging fileConfig cfg s) w.
Proof.
  intros Hs.
  destruct (List.find (exists_as_file (fs w))
              (build_candidates cfg (environ w !! s))) as [p|] eqn:F.
  - assert (fst (_resolve_logging_config_path cfg s w) = Returned (Some p))
      as Hr by (by rewrite resolve_spec, F).
    destruct (fileConfig (path_str p) false w) as [[[]|e] w1] eqn:L.
    + assert (Handlers.try_body (fun f b => Handlers.lift (fileConfig f b))
                code p w
              = Handlers.lift (report_loaded p) w1) as Hbody.
      { unfold Handlers.try_body.
        erewrite py_bind_done; [|by apply lift_returned].
        by apply report_with_silent_handlers. }
      destruct (getLogger_then_log DEBUG "Logging configured from file: %s"
                  [path_str p] None w1) as (h & w2 & E & _).
      change (report_loaded p w1 = (Returned (), w2)) in E.
      rewrite (lift_returned _ _ _ _ E) in Hbody.
      destruct (handlers_try_done _ code cfg s w p tt w2 Hr Hbody) as (-> & _).
      unfold Handlers.lift.
      by rewrite (setup_logging_loaded _ _ _ _ _ _ _ Hr L), E.
    + assert (Handlers.try_body (fun f b => Handlers.lift (fileConfig f b))
                code p w
              = (Handlers.Thrown (Handlers.Exception e), w1)) as Hbody.
      { unfold Handlers.try_body.
        erewrite py_bind_thrown; [reflexivity|]. by apply lift_raised. }
      destruct (handlers_try_caught _ code cfg s w p e w1 Hr Hbody)
        as (-> & _).
      unfold Handlers.lift at 1.
      rewrite (setup_logging_load_failed _ _ _ _ _ _ _ Hr L).
      destruct (getLogger_then_log ERROR
                  "Failed to configure logging from %s. Falling back to basicConfig."
                  [path_str p] (Some e) w1) as (h & w2 & E & _).
      change (report_failure p e w1 = (Returned (), w2)) in E.
      assert (Handlers.report_failure code p e w1 = (Handlers.Done tt, w2))
        as E'.
      { unfold Handlers.report_failure, Handlers.Logger_exception.
        rewrite report_with_silent_handlers by exact Hs.
        by apply lift_returned. }
      rewrite (py_bind_done _ _ _ _ _ E'), E. cbn [snd].
      by apply install_default_with_silent_handlers.
  - assert (fst (_resolve_logging_config_path cfg s w) = Returned None)
      as Hr by (by rewrite resolve_spec, F).
    destruct (handlers_no_config (fun f b => Handlers.lift (fileConfig f b))
                code cfg s w Hr) as (-> & _).
    unfold Handlers.lift at 1.
    rewrite (setup_logging_no_config _ _ _ _ Hr).
    by apply install_default_with_silent_handlers.
Qed.

(** ** Where an exception can come from *)





